(** * gatsby-node.js: the content-to-page pipeline of the site

  A shallow embedding of the four lifecycle hooks exported by
  [gatsby-node.js] (createSchemaCustomization, sourceNodes, onCreateNode,
  createPages) together with the [slugify] field resolver, and the
  properties of the pipeline they form.

  JavaScript strings are modelled as [string]; the only characters the
  code inspects are ASCII slashes. *)

From Stdlib Require Import ZArith Ascii String List Bool Lia.
From stdpp Require Import base option strings gmap pretty.

Local Open Scope string_scope.

(** ** JavaScript values and strings *)

Module JS.

(** The values a YAML frontmatter field or a node field can hold.
    [JNum] covers the integral numbers. *)
Inductive value : Type :=
| JUndefined
| JNull
| JBool (b : bool)
| JNum (z : Z)
| JStr (s : string).

#[global] Instance value_eq_dec : EqDecision value.
Proof. solve_decision. Defined.

(** ToBoolean: the test of [x ? a : b]. *)
Definition truthy (v : value) : bool :=
  match v with
  | JUndefined | JNull => false
  | JBool b => b
  | JNum z => negb (z =? 0)%Z
  | JStr s => negb (String.eqb s "")
  end.

(** ToString: what a template literal does to an interpolated value. *)
Definition to_string (v : value) : string :=
  match v with
  | JUndefined => "undefined"
  | JNull => "null"
  | JBool true => "true"
  | JBool false => "false"
  | JNum z => pretty z
  | JStr s => s
  end.

Definition is_slash (c : ascii) : bool := Ascii.eqb c "/".

(** *** [str.replace(/\/\/+/g, "/")] *)

(** The greedy tail [\/+] of the pattern: what is left of the subject once
    every leading slash has been consumed. *)
Fixpoint skip_slashes (s : string) : string :=
  match s with
  | String c r => if is_slash c then skip_slashes r else s
  | EmptyString => EmptyString
  end.

(** The pattern [\/\/+] tried at the head of [s]: the remainder of the
    subject after the match, if there is one. *)
Definition match_slash_run (s : string) : option string :=
  match s with
  | String c1 (String c2 r) =>
      if is_slash c1 && is_slash c2 then Some (skip_slashes r) else None
  | _ => None
  end.

(** The global replace: scan left to right; where the pattern matches, emit
    the replacement and resume after the match, otherwise copy one
    character.  [fuel] bounds the number of scan steps. *)
Fixpoint replace_scan (fuel : nat) (s : string) : string :=
  match fuel, s with
  | S f, String c r =>
      match match_slash_run s with
      | Some rest => String "/" (replace_scan f rest)
      | None => String c (replace_scan f r)
      end
  | _, _ => EmptyString
  end.

Definition replace_slash_runs (s : string) : string :=
  replace_scan (String.length s) s.

(** *** [str.split("/")] and [.filter(Boolean)] *)

(** The segments between the slashes of [s]; a subject without a slash is
    its own single segment. *)
Fixpoint split_slash (s : string) : list string :=
  match s with
  | EmptyString => [EmptyString]
  | String c r =>
      if is_slash c then EmptyString :: split_slash r
      else
        match split_slash r with
        | seg :: segs => String c seg :: segs
        | [] => [String c EmptyString]
        end
  end.

(** [Boolean] on a string: the empty string is the only falsy one. *)
Definition nonempty (s : string) : bool := negb (String.eqb s "").

Definition filter_Boolean (l : list string) : list string :=
  List.filter nonempty l.

End JS.

(** ** Gatsby nodes, pages and query results *)

Module Frontmatter.
(** The frontmatter object gatsby-plugin-mdx attaches to every Mdx node; a
    key the document does not set reads as [undefined]. *)
Record t : Type := mk {
  slug : JS.value;
  title : JS.value;
  releaseDate : JS.value;
  banner : JS.value;
  description : JS.value
}.
Definition empty : t := mk JS.JUndefined JS.JUndefined JS.JUndefined JS.JUndefined JS.JUndefined.
End Frontmatter.

Module FieldData.
(** The [fieldData] object literal of onCreateNode. *)
Record t : Type := mk {
  slug : JS.value;
  title : JS.value;
  releaseDate : JS.value;
  banner : JS.value;
  description : JS.value
}.
End FieldData.

Module Config.
Record ExternalLink : Type := { link_name : string; url : string }.
Record NavigationEntry : Type := { nav_title : string; nav_slug : string }.
(** The [minimalBlogConfig] object literal of sourceNodes. *)
Record t : Type := mk {
  storiesPath : string;
  externalLinks : list ExternalLink;
  navigation : list NavigationEntry
}.
End Config.

Module Internal.
Record t : Type := mk {
  type : string;
  contentDigest : string;
  content : string;
  description : option string
}.
End Internal.

Module Node.
(** A node object.  [slug] to [description] are the MdxStoryPage fields
    spread from [fieldData], [config] the MinimalBlogConfig fields; a field
    a node does not carry reads as [undefined] ([None] for [config]). *)
Record t : Type := mk {
  id : string;
  parent : option string;
  children : list string;
  internal : Internal.t;
  sourceInstanceName : JS.value;
  frontmatter : Frontmatter.t;
  slug : JS.value;
  title : JS.value;
  releaseDate : JS.value;
  banner : JS.value;
  description : JS.value;
  config : option Config.t
}.
End Node.

Module Page.
Record context : Type := mk_context {
  breadcrumbs : list string;
  slug : option string;
  formatString : string
}.
(** The argument of [createPage]. *)
Record t : Type := mk {
  path : string;
  component : string;
  context_ : context
}.
End Page.

Module Query.
(** One entry of [result.data.allStoryPage.nodes]. *)
Record page_node : Type := { slug : string }.
(** What [await graphql(...)] resolves to: [errors] is absent or an array
    (a truthy object also when empty), [data] is absent or carries the
    list [data.allStoryPage.nodes]. *)
Record result : Type := mk {
  errors : option (list string);
  data : option (list page_node)
}.
End Query.

(** The objects handed to [createContentDigest] and [JSON.stringify]. *)
Inductive plain_object : Type :=
| ConfigObject (c : Config.t)
| FieldDataObject (f : FieldData.t).

(** What the hooks call but the module does not define: lodash's
    [kebabCase], the helpers Gatsby passes to the hooks, and
    [JSON.stringify]. *)
Class Externals : Type := {
  kebabCase : JS.value -> string;
  createNodeId : string -> string;
  createContentDigest : plain_object -> string;
  JSON_stringify : plain_object -> string
}.

(** ** Schema declarations handed to [createTypes] *)

Record field_def : Type := {
  field_name : string;
  field_type : string;
  field_extension : option string
}.

Inductive type_kind : Type := ObjectType | InterfaceType.

Record type_def : Type := {
  type_kind_ : type_kind;
  type_name : string;
  implements : list string;
  type_fields : list field_def
}.

(** ** Framework actions and the world they act on *)

Inductive action : Type :=
| CreateFieldExtension (name : string) (args : list (string * string))
| CreateTypes (defs : list type_def)
| CreateNode (n : Node.t)
| CreateParentChildLink (parent child : Node.t)
| CreatePage (p : Page.t)
| Graphql (query : string)
| PanicOnBuild (message : string) (errors : list string).

(** The name of the framework function behind an action. *)
Inductive action_kind : Type :=
| KCreateFieldExtension | KCreateTypes | KCreateNode | KCreateParentChildLink
| KCreatePage | KGraphql | KPanicOnBuild.

Definition kind_of (a : action) : action_kind :=
  match a with
  | CreateFieldExtension _ _ => KCreateFieldExtension
  | CreateTypes _ => KCreateTypes
  | CreateNode _ => KCreateNode
  | CreateParentChildLink _ _ => KCreateParentChildLink
  | CreatePage _ => KCreatePage
  | Graphql _ => KGraphql
  | PanicOnBuild _ _ => KPanicOnBuild
  end.

(** The node store of the build and the log of framework calls, oldest
    first. *)
Record world : Type := mk_world {
  store : gmap string Node.t;
  trace : list action
}.

Inductive outcome (A : Type) : Type :=
| Returned (a : A)
| Threw (error : string).
Arguments Returned {A} a.
Arguments Threw {A} error.

(** Hooks run in a state monad over the world that also carries uncaught
    exceptions. *)
Definition M (A : Type) : Type := world -> outcome A * world.

#[global] Instance M_ret : MRet M := fun A a w => (Returned a, w).
#[global] Instance M_bind : MBind M := fun A B k m w =>
  match m w with
  | (Returned a, w') => k a w'
  | (Threw e, w') => (Threw e, w')
  end.

Definition throw {A : Type} (e : string) : M A := fun w => (Threw e, w).

Definition emit (a : action) : M unit :=
  fun w => (Returned tt, mk_world (store w) (trace w ++ [a])).

Definition put_node (n : Node.t) : M unit :=
  fun w => (Returned tt, mk_world (<[Node.id n := n]> (store w)) (trace w)).

Definition getNode (i : option string) : M (option Node.t) :=
  fun w => (Returned (i ≫= fun k => store w !! k), w).

Definition createFieldExtension (name : string) (args : list (string * string)) : M unit :=
  emit (CreateFieldExtension name args).

Definition createTypes (defs : list type_def) : M unit := emit (CreateTypes defs).

(** [actions.createNode]: the node enters the store under its id. *)
Definition createNode (n : Node.t) : M unit :=
  emit (CreateNode n) ;; put_node n.

(** [parent.children] with the child's id pushed unless already there. *)
Definition add_child (parent child : Node.t) : Node.t :=
  if bool_decide (Node.id child ∈ Node.children parent) then parent
  else Node.mk (Node.id parent) (Node.parent parent)
         (Node.children parent ++ [Node.id child]) (Node.internal parent)
         (Node.sourceInstanceName parent) (Node.frontmatter parent)
         (Node.slug parent) (Node.title parent) (Node.releaseDate parent)
         (Node.banner parent) (Node.description parent) (Node.config parent).

(** [actions.createParentChildLink]: reading [child.id] of a missing child
    throws; otherwise the updated parent is stored. *)
Definition createParentChildLink (parent : Node.t) (child : option Node.t) : M unit :=
  match child with
  | None => throw "TypeError"
  | Some c => emit (CreateParentChildLink parent c) ;; put_node (add_child parent c)
  end.

Definition createPage (p : Page.t) : M unit := emit (CreatePage p).

Definition panicOnBuild (message : string) (errors : list string) : M unit :=
  emit (PanicOnBuild message errors).

(** [array.forEach(f)] *)
Fixpoint forEach {A : Type} (l : list A) (f : A -> M unit) : M unit :=
  match l with
  | [] => mret tt
  | x :: r => f x ;; forEach r f
  end.

(** [a === b] on the modelled values. *)
Definition strict_eq (a b : JS.value) : bool := bool_decide (a = b).

(** ** The hooks *)

Section Hooks.
Context `{Externals}.

(** The [slugify] resolver registered by createSchemaCustomization. *)
Definition slugify (source : Node.t) : string :=
  let slug :=
    if JS.truthy (Node.slug source) then Node.slug source
    else JS.JStr (kebabCase (Node.title source)) in
  JS.replace_slash_runs ("/" ++ JS.to_string slug).

Definition fld (name type : string) : field_def :=
  {| field_name := name; field_type := type; field_extension := None |}.

Definition fld_ext (name type ext : string) : field_def :=
  {| field_name := name; field_type := type; field_extension := Some ext |}.

(** The type definitions passed to [createTypes]. *)
Definition schema_types : list type_def :=
  [ {| type_kind_ := ObjectType; type_name := "StoryPageTag"; implements := [];
       type_fields := [fld "name" "String"; fld "slug" "String"] |};
    {| type_kind_ := InterfaceType; type_name := "StoryPage"; implements := [];
       type_fields :=
         [fld "id" "ID!"; fld_ext "slug" "String!" "slugify";
          fld "title" "String!"; fld_ext "releaseDate" "Date!" "dateformat";
          fld "excerpt" "String!"; fld "body" "String!";
          fld "timeToRead" "Int"; fld "tags" "[StoryPageTag]";
          fld_ext "banner" "File" "fileByRelativePath";
          fld "description" "String"] |};
    {| type_kind_ := ObjectType; type_name := "MdxStoryPage";
       implements := ["Node"; "StoryPage"];
       type_fields :=
         [fld_ext "slug" "String!" "slugify"; fld "title" "String!";
          fld_ext "releaseDate" "Date!" "dateformat";
          fld_ext "excerpt" "String!" "mdxpassthrough";
          fld_ext "body" "String!" "mdxpassthrough";
          fld_ext "timeToRead" "Int" "mdxpassthrough";
          fld "tags" "[StoryPageTag]";
          fld_ext "banner" "File" "fileByRelativePath";
          fld "description" "String"] |};
    {| type_kind_ := ObjectType; type_name := "MinimalBlogConfig";
       implements := ["Node"];
       type_fields :=
         [fld "storiesPath" "String!"; fld "externalLinks" "[ExternalLink!]!";
          fld "navigation" "[NavigationEntry!]!"] |};
    {| type_kind_ := ObjectType; type_name := "ExternalLink"; implements := [];
       type_fields := [fld "name" "String!"; fld "url" "String!"] |};
    {| type_kind_ := ObjectType; type_name := "NavigationEntry"; implements := [];
       type_fields := [fld "title" "String!"; fld "slug" "String!"] |} ].

(** The two extensions and the type definitions, in the order of the
    calls.  The resolver behind [mdxpassthrough] forwards to the resolvers
    of the Mdx type and takes no part in the slug. *)
Definition createSchemaCustomization : M unit :=
  createFieldExtension "slugify" [] ;;
  createFieldExtension "mdxpassthrough" [("fieldName", "String!")] ;;
  createTypes schema_types.

Definition minimalBlogConfig : Config.t := Config.mk "/stories" [] [].

Definition sourceNodes : M unit :=
  createNode
    (Node.mk "site >>> config" None []
       (Internal.mk "MinimalBlogConfig"
          (createContentDigest (ConfigObject minimalBlogConfig))
          (JSON_stringify (ConfigObject minimalBlogConfig))
          None)
       JS.JUndefined Frontmatter.empty
       JS.JUndefined JS.JUndefined JS.JUndefined JS.JUndefined JS.JUndefined
       (Some minimalBlogConfig)).

(** The [fieldData] literal built from the frontmatter of an Mdx node. *)
Definition fieldData_of (fm : Frontmatter.t) : FieldData.t :=
  FieldData.mk
    (if JS.truthy (Frontmatter.slug fm) then Frontmatter.slug fm else JS.JUndefined)
    (Frontmatter.title fm)
    (Frontmatter.releaseDate fm)
    (Frontmatter.banner fm)
    (Frontmatter.description fm).

(** The object literal passed to [createNode] by onCreateNode. *)
Definition mdxStoryPage_node (node : Node.t) (fieldData : FieldData.t)
    (mdxStoryPageId : string) : Node.t :=
  Node.mk mdxStoryPageId (Some (Node.id node)) []
    (Internal.mk "MdxStoryPage"
       (createContentDigest (FieldDataObject fieldData))
       (JSON_stringify (FieldDataObject fieldData))
       (Some "Mdx implementation of the StoryPage interface"))
    JS.JUndefined Frontmatter.empty
    (FieldData.slug fieldData) (FieldData.title fieldData)
    (FieldData.releaseDate fieldData) (FieldData.banner fieldData)
    (FieldData.description fieldData)
    None.

Definition onCreateNode (node : Node.t) : M unit :=
  if negb (String.eqb (Internal.type (Node.internal node)) "Mdx") then mret tt
  else
    fileNode ← getNode (Node.parent node);
    match fileNode with
    | None => throw "TypeError"
    | Some fileNode =>
        let source := Node.sourceInstanceName fileNode in
        if strict_eq source (JS.JStr "stories") then
          let fieldData := fieldData_of (Node.frontmatter node) in
          let mdxStoryPageId := createNodeId (Node.id node ++ " >>> MdxStoryPage") in
          createNode (mdxStoryPage_node node fieldData mdxStoryPageId) ;;
          child ← getNode (Some mdxStoryPageId);
          createParentChildLink node child
        else mret tt
    end.

Definition storiesPageTemplate : string := "./src/templates/stories-page-query.js".
Definition storyPageTemplate : string := "./src/templates/story-page-query.js".

Definition stories_page : Page.t :=
  Page.mk "/stories" storiesPageTemplate
    (Page.mk_context ["stories"] None "DD.MM.YYYY").

(** The page emitted by the body of the [forEach] in createPages. *)
Definition story_page (page : Query.page_node) : Page.t :=
  let breadcrumbs := JS.filter_Boolean (JS.split_slash (Query.slug page)) in
  Page.mk (JS.replace_slash_runs (Query.slug page)) storyPageTemplate
    (Page.mk_context breadcrumbs (Some (Query.slug page)) "DD.MM.YYYY").

Definition stories_query : string :=
  "query { allStoryPage(sort: { fields: releaseDate, order: DESC }) { nodes { slug } } }".

Definition createPages (graphql : string -> Query.result) : M unit :=
  createPage stories_page ;;
  emit (Graphql stories_query) ;;
  let result := graphql stories_query in
  match Query.errors result with
  | Some errors =>
      panicOnBuild "There was an error loading your pages" errors
  | None =>
      match Query.data result with
      | None => throw "TypeError"
      | Some nodes => forEach nodes (fun page => createPage (story_page page))
      end
  end.

(** The [slug] of a story in a query result: both StoryPage and
    MdxStoryPage declare [slug: String! @slugify], so the field resolves
    through [slugify] on the stored node. *)
Definition query_node_of (source : Node.t) : Query.page_node :=
  {| Query.slug := slugify source |}.

End Hooks.

(** The extension a type declares on one of its fields. *)
Definition declared_extension (defs : list type_def) (ty field : string) : option string :=
  d ← List.find (fun d => String.eqb (type_name d) ty) defs;
  f ← List.find (fun f => String.eqb (field_name f) field) (type_fields d);
  field_extension f.

(** Running a hook on a store, with an empty log. *)
Definition run {A : Type} (h : M A) (st : gmap string Node.t) : outcome A * world :=
  h (mk_world st []).

Definition actions_of {A : Type} (h : M A) (st : gmap string Node.t) : list action :=
  trace (snd (run h st)).

Definition store_after {A : Type} (h : M A) (st : gmap string Node.t) : gmap string Node.t :=
  store (snd (run h st)).

Definition result_of {A : Type} (h : M A) (st : gmap string Node.t) : outcome A :=
  fst (run h st).

(** ** Reference definitions the code is compared with *)

(** Every run of consecutive slashes collapsed to a single slash: a slash
    that is followed by another slash is dropped. *)
Fixpoint collapse_slashes (s : string) : string :=
  match s with
  | EmptyString => EmptyString
  | String c r =>
      match r with
      | String c' _ =>
          if JS.is_slash c && JS.is_slash c' then collapse_slashes r
          else String c (collapse_slashes r)
      | EmptyString => String c EmptyString
      end
  end.

(** [s] has a slash at position [i] that is followed by another slash. *)
Definition double_slash_at (s : string) (i : nat) : Prop :=
  String.get i s = Some "/"%char /\ String.get (S i) s = Some "/"%char.

Definition slash_normal (s : string) : Prop := forall i, ~ double_slash_at s i.

(** The boolean test of [slash_normal]. *)
Fixpoint slash_normalb (s : string) : bool :=
  match s with
  | String c ((String c' _) as r) =>
      negb (JS.is_slash c && JS.is_slash c') && slash_normalb r
  | _ => true
  end.

(** [segs.join("/")] *)
Fixpoint join_slash (segs : list string) : string :=
  match segs with
  | [] => EmptyString
  | [seg] => seg
  | seg :: rest => seg ++ String "/" (join_slash rest)
  end.

Fixpoint has_slash (s : string) : bool :=
  match s with
  | EmptyString => false
  | String c r => JS.is_slash c || has_slash r
  end.

Section Reference.
Context `{Externals}.

(** The child node onCreateNode builds for [node]. *)
Definition child_of (node : Node.t) : Node.t :=
  mdxStoryPage_node node (fieldData_of (Node.frontmatter node))
    (createNodeId (Node.id node ++ " >>> MdxStoryPage")).

(** The slug of a story as the pipeline is described: the [slug] field when
    truthy, the kebab-cased title otherwise, behind a leading slash, slash
    runs collapsed. *)
Definition spec_slug (source : Node.t) : string :=
  let chosen :=
    if JS.truthy (Node.slug source) then JS.to_string (Node.slug source)
    else kebabCase (Node.title source) in
  collapse_slashes (String "/" chosen).

End Reference.

(** The log entries of the [forEach] over the query nodes. *)
Definition story_pages (nodes : list Query.page_node) : list action :=
  List.map (fun page => CreatePage (story_page page)) nodes.

(** The kinds of the actions a hook performs on a store. *)
Definition kinds_of {A : Type} (h : M A) (st : gmap string Node.t) : list action_kind :=
  List.map kind_of (actions_of h st).

(** A hook is uniform when any two inputs make it perform the same sequence
    of framework calls. *)
Definition uniform {I : Type} (hook : I -> M unit) : Prop :=
  forall i1 st1 i2 st2, kinds_of (hook i1) st1 = kinds_of (hook i2) st2.

(** An Mdx node whose parent file comes from the [stories] source. *)
Definition story_source (st : gmap string Node.t) (node : Node.t) : Prop :=
  Internal.type (Node.internal node) = "Mdx" /\
  exists fileNode,
    (Node.parent node ≫= fun k => st !! k) = Some fileNode /\
    Node.sourceInstanceName fileNode = JS.JStr "stories".

Definition is_story_page_action (a : action) : bool :=
  match a with
  | CreatePage p => String.eqb (Page.component p) storyPageTemplate
  | _ => false
  end.

(** ** Sample inputs *)

Definition lower (c : ascii) : ascii :=
  let n := nat_of_ascii c in
  if (65 <=? n)%nat && (n <=? 90)%nat then ascii_of_nat (n + 32) else c.

(** A stand-in for lodash's kebabCase on simple titles: lower-case letters,
    blanks turned into dashes. *)
Fixpoint sample_kebab (s : string) : string :=
  match s with
  | EmptyString => EmptyString
  | String c r =>
      String (if Ascii.eqb c " " then "-"%char else lower c) (sample_kebab r)
  end.

Definition sample_externals : Externals :=
  {| kebabCase := fun v =>
       match v with
       | JS.JUndefined | JS.JNull => EmptyString
       | _ => sample_kebab (JS.to_string v)
       end;
     createNodeId := fun s => "id(" ++ s ++ ")";
     createContentDigest := fun _ => "digest";
     JSON_stringify := fun _ => "{}" |}.

Definition sample_file : Node.t :=
  Node.mk "file-1" None ["mdx-1"] (Internal.mk "File" "digest" "" None)
    (JS.JStr "stories") Frontmatter.empty
    JS.JUndefined JS.JUndefined JS.JUndefined JS.JUndefined JS.JUndefined None.

Definition sample_frontmatter : Frontmatter.t :=
  Frontmatter.mk (JS.JStr "") (JS.JStr "Hello World") (JS.JStr "2020-07-14")
    JS.JUndefined (JS.JStr "A note").

Definition sample_mdx : Node.t :=
  Node.mk "mdx-1" (Some "file-1") [] (Internal.mk "Mdx" "digest" "" None)
    JS.JUndefined sample_frontmatter
    JS.JUndefined JS.JUndefined JS.JUndefined JS.JUndefined JS.JUndefined None.

Definition sample_store : gmap string Node.t :=
  <["mdx-1" := sample_mdx]> (<["file-1" := sample_file]> ∅).

Definition sample_story : Node.t :=
  @mdxStoryPage_node sample_externals sample_mdx
    (fieldData_of sample_frontmatter) "story-1".

Definition graphql_ok (nodes : list Query.page_node) : string -> Query.result :=
  fun _ => Query.mk None (Some nodes).

Definition graphql_failed (errors : list string) : string -> Query.result :=
  fun _ => Query.mk (Some errors) None.

(** Two distinct slugs, the first with a slash run. *)
Definition clashing_nodes : list Query.page_node :=
  [ {| Query.slug := "/a//b" |}; {| Query.slug := "/a/b" |} ].

Definition sample_nodes : list Query.page_node :=
  [ query_node_of (H := sample_externals) sample_story;
    {| Query.slug := "/notes/2020" |} ].

(** ** The passthrough resolver *)

Section Passthrough.
Context {Args R : Type}.

(** A [resolve] function of the schema, called as
    [resolver(source, args, context, info)]: the context gives access to the
    store, [info] carries the field name. *)
Definition resolver : Type := option Node.t -> Args -> string -> M R.

(** [info.schema.getType("Mdx")]: absent, or the table [getFields()] of the
    type, where a field may lack a [resolve] function. *)
Definition schema_type : Type := option (string -> option (option resolver)).

(** [mdxResolverPassthrough(fieldName)(source, args, context, info)]:
    reading the fields of a missing type, [resolve] of a missing field, or
    calling a missing [resolve] throws. *)
Definition mdxResolverPassthrough (Mdx : schema_type) (fieldName : string)
    (source : Node.t) (args : Args) : M R :=
  mdxNode ← getNode (Node.parent source);
  match Mdx with
  | None => throw "TypeError"
  | Some getFields =>
      match getFields fieldName with
      | None => throw "TypeError"
      | Some None => throw "TypeError"
      | Some (Some resolve) => resolve mdxNode args fieldName
      end
  end.

End Passthrough.

(** ** Further reference definitions *)

(** [s] without its slashes. *)
Fixpoint strip_slashes (s : string) : string :=
  match s with
  | EmptyString => EmptyString
  | String c r => if JS.is_slash c then strip_slashes r else String c (strip_slashes r)
  end.

(** The breadcrumbs createPages computes for a slug. *)
Definition breadcrumbs_of (slug : string) : list string :=
  JS.filter_Boolean (JS.split_slash slug).

Section FrontmatterSlug.
Context `{Externals}.

(** The string a story document chooses as its slug: the frontmatter slug
    when truthy, the kebab-cased title otherwise. *)
Definition frontmatter_choice (fm : Frontmatter.t) : string :=
  if JS.truthy (Frontmatter.slug fm) then JS.to_string (Frontmatter.slug fm)
  else kebabCase (Frontmatter.title fm).

(** The string [slugify] chooses before it adds the slash. *)
Definition source_choice (source : Node.t) : string :=
  if JS.truthy (Node.slug source) then JS.to_string (Node.slug source)
  else kebabCase (Node.title source).

End FrontmatterSlug.

Section ConfigNode.
Context `{Externals}.

(** The object literal sourceNodes passes to [createNode]. *)
Definition config_node : Node.t :=
  Node.mk "site >>> config" None []
    (Internal.mk "MinimalBlogConfig"
       (createContentDigest (ConfigObject minimalBlogConfig))
       (JSON_stringify (ConfigObject minimalBlogConfig))
       None)
    JS.JUndefined Frontmatter.empty
    JS.JUndefined JS.JUndefined JS.JUndefined JS.JUndefined JS.JUndefined
    (Some minimalBlogConfig).

End ConfigNode.

(** A story node with the given [slug] and [title] fields. *)
Definition story_with (slug title : JS.value) : Node.t :=
  Node.mk "story" (Some "mdx") [] (Internal.mk "MdxStoryPage" "digest" "{}" None)
    JS.JUndefined Frontmatter.empty
    slug title JS.JUndefined JS.JUndefined JS.JUndefined None.

(** A document without a parent in the store. *)
Definition orphan_mdx : Node.t :=
  Node.mk "mdx-9" (Some "file-9") [] (Internal.mk "Mdx" "digest" "" None)
    JS.JUndefined sample_frontmatter
    JS.JUndefined JS.JUndefined JS.JUndefined JS.JUndefined JS.JUndefined None.

(** A query result that carries neither errors nor data. *)
Definition graphql_blank : string -> Query.result := fun _ => Query.mk None None.

(** The fields of a sample Mdx type: [excerpt] resolves to the id of the
    node, [tableOfContents] has no [resolve]. *)
Definition sample_fields : string -> option (option (@resolver unit string)) :=
  fun field =>
    if String.eqb field "excerpt"
    then Some (Some (fun n _ _ => mret (from_option Node.id "" n)))
    else if String.eqb field "tableOfContents" then Some None
    else None.

Definition sample_schema : @schema_type unit string := Some sample_fields.

(** A result whose only node has a slug that collapses to the listing
    path. *)
Definition listing_clash_nodes : list Query.page_node :=
  [ {| Query.slug := "/notes" |}; {| Query.slug := "//stories" |} ].

Section ResolvedResults.
Context `{Externals}.

(** The nodes of a result of the [allStoryPage] query: each carries the
    slug the schema resolves for some stored story, see [query_node_of]. *)
Definition resolved_nodes (nodes : list Query.page_node) : Prop :=
  List.Forall (fun page => exists source, page = query_node_of source) nodes.

End ResolvedResults.

(** Two resolved stories: one takes its slug from the title, one from a
    frontmatter slug with a slash run and no leading slash. *)
Definition resolved_sample_nodes : list Query.page_node :=
  [ query_node_of (H := sample_externals) sample_story;
    query_node_of (H := sample_externals)
      (story_with (JS.JStr "notes//2020") (JS.JStr "Notes")) ].

(** * Properties *)

(** ** Strings *)

Section StringFacts.

Lemma is_slash_true (c : ascii) : JS.is_slash c = true <-> c = "/"%char.
Proof. unfold JS.is_slash. apply Ascii.eqb_eq. Qed.

Lemma skip_slashes_length (s : string) :
  String.length (JS.skip_slashes s) <= String.length s.
Proof.
  induction s as [|c r IH]; simpl; [lia|].
  destruct (JS.is_slash c); simpl; lia.
Qed.

Lemma collapse_cons2 (c c' : ascii) (r : string) :
  collapse_slashes (String c (String c' r)) =
  if JS.is_slash c && JS.is_slash c' then collapse_slashes (String c' r)
  else String c (collapse_slashes (String c' r)).
Proof. reflexivity. Qed.

Lemma slash_normalb_cons2 (c c' : ascii) (r : string) :
  slash_normalb (String c (String c' r)) =
  negb (JS.is_slash c && JS.is_slash c') && slash_normalb (String c' r).
Proof. reflexivity. Qed.

Lemma collapse_head (r : string) :
  forall c, exists t, collapse_slashes (String c r) = String c t.
Proof.
  induction r as [|c' r' IH]; intros c.
  - exists EmptyString. reflexivity.
  - rewrite collapse_cons2.
    destruct (JS.is_slash c && JS.is_slash c') eqn:E.
    + apply andb_true_iff in E as [Hc Hc'].
      apply is_slash_true in Hc, Hc'. subst c c'. apply IH.
    + eexists. reflexivity.
Qed.

Lemma collapse_cons_slash (r : string) :
  collapse_slashes (String "/" r) = String "/" (collapse_slashes (JS.skip_slashes r)).
Proof.
  induction r as [|c' r' IH]; [reflexivity|].
  rewrite collapse_cons2. cbn [JS.skip_slashes].
  change (JS.is_slash "/") with true. cbn [andb].
  destruct (JS.is_slash c') eqn:E.
  - apply is_slash_true in E. subst c'. exact IH.
  - reflexivity.
Qed.

(** With fuel for every character the scan is the collapse. *)
Lemma replace_scan_collapse (fuel : nat) :
  forall s, String.length s <= fuel -> JS.replace_scan fuel s = collapse_slashes s.
Proof.
  induction fuel as [|f IH]; intros s Hlen.
  - destruct s; [reflexivity | simpl in Hlen; lia].
  - destruct s as [|c r]; [reflexivity|].
    cbn [JS.replace_scan JS.match_slash_run].
    destruct r as [|c2 r2].
    + destruct f; reflexivity.
    + rewrite collapse_cons2.
      destruct (JS.is_slash c && JS.is_slash c2) eqn:E.
      * apply andb_true_iff in E as [_ Hc2]. apply is_slash_true in Hc2. subst c2.
        rewrite collapse_cons_slash. f_equal. apply IH.
        pose proof (skip_slashes_length r2). simpl in Hlen. lia.
      * f_equal. apply IH. simpl in Hlen |- *. lia.
Qed.

(** The regular-expression replace of the code collapses slash runs. *)
Lemma replace_slash_runs_collapse (s : string) :
  JS.replace_slash_runs s = collapse_slashes s.
Proof. unfold JS.replace_slash_runs. apply replace_scan_collapse. lia. Qed.

Lemma collapse_normalb (s : string) : slash_normalb (collapse_slashes s) = true.
Proof.
  induction s as [|c r IH]; [reflexivity|].
  destruct r as [|c' r']; [reflexivity|].
  rewrite collapse_cons2.
  destruct (JS.is_slash c && JS.is_slash c') eqn:E; [exact IH|].
  destruct (collapse_head r' c') as [t Ht].
  rewrite Ht in IH |- *. rewrite slash_normalb_cons2, E, IH. reflexivity.
Qed.

Lemma collapse_fixed (s : string) : slash_normalb s = true -> collapse_slashes s = s.
Proof.
  induction s as [|c r IH]; [reflexivity|].
  destruct r as [|c' r']; [reflexivity|].
  rewrite collapse_cons2, slash_normalb_cons2. intros Hn.
  apply andb_true_iff in Hn as [Hn1 Hn2].
  apply negb_true_iff in Hn1. rewrite Hn1. f_equal. apply IH, Hn2.
Qed.

Lemma collapse_idempotent (s : string) :
  collapse_slashes (collapse_slashes s) = collapse_slashes s.
Proof. apply collapse_fixed, collapse_normalb. Qed.

Lemma slash_normalb_spec (s : string) : slash_normalb s = true <-> slash_normal s.
Proof.
  induction s as [|c r IH].
  - split; [|reflexivity]. intros _ i [Hi _]. destruct i; discriminate.
  - destruct r as [|c' r'].
    + split; [|reflexivity]. intros _ i [Hi Hi'].
      destruct i as [|i]; cbn in Hi'; [discriminate | destruct i; discriminate].
    + rewrite slash_normalb_cons2, andb_true_iff, negb_true_iff, IH. split.
      * intros [Hh Ht] i [Hi Hi']. destruct i as [|i].
        -- cbn in Hi, Hi'. injection Hi as ->. injection Hi' as ->.
           discriminate.
        -- apply (Ht i). split; assumption.
      * intros Hn. split.
        -- destruct (JS.is_slash c && JS.is_slash c') eqn:E; [|reflexivity].
           apply andb_true_iff in E as [Hc Hc'].
           apply is_slash_true in Hc, Hc'. subst.
           exfalso. apply (Hn 0). split; reflexivity.
        -- intros i [Hi Hi']. apply (Hn (S i)). split; assumption.
Qed.

Lemma collapse_slash_normal (s : string) : slash_normal (collapse_slashes s).
Proof. apply slash_normalb_spec, collapse_normalb. Qed.

Lemma collapse_fixed_normal (s : string) : slash_normal s -> collapse_slashes s = s.
Proof. intros Hn. apply collapse_fixed, slash_normalb_spec, Hn. Qed.

Lemma split_slash_nonnil (s : string) : JS.split_slash s <> [].
Proof.
  induction s as [|c r IH]; cbn; [discriminate|].
  destruct (JS.is_slash c); [discriminate|].
  destruct (JS.split_slash r); [contradiction | discriminate].
Qed.

(** Joining the segments with slashes gives the subject back. *)
Lemma join_split_slash (s : string) : join_slash (JS.split_slash s) = s.
Proof.
  induction s as [|c r IH]; [reflexivity|].
  cbn [JS.split_slash].
  pose proof (split_slash_nonnil r) as Hne.
  destruct (JS.is_slash c) eqn:E.
  - apply is_slash_true in E. subst c.
    destruct (JS.split_slash r) as [|seg segs]; [contradiction|].
    cbn [join_slash String.append]. rewrite <- IH. reflexivity.
  - destruct (JS.split_slash r) as [|seg segs]; [contradiction|].
    rewrite <- IH. destruct segs; reflexivity.
Qed.

Lemma split_slash_segments (s : string) :
  Forall (fun seg => has_slash seg = false) (JS.split_slash s).
Proof.
  induction s as [|c r IH]; cbn [JS.split_slash].
  - constructor; [reflexivity | constructor].
  - destruct (JS.is_slash c) eqn:E.
    + constructor; [reflexivity | exact IH].
    + destruct (JS.split_slash r) as [|seg segs].
      * constructor; [cbn; rewrite E; reflexivity | constructor].
      * inversion IH as [|? ? Hseg Hsegs]; subst.
        constructor; [cbn; rewrite E; exact Hseg | exact Hsegs].
Qed.

(** The breadcrumbs of a slug are its non-empty slash-free segments. *)
Lemma breadcrumbs_segments (s seg : string) :
  In seg (JS.filter_Boolean (JS.split_slash s)) ->
  seg <> EmptyString /\ has_slash seg = false /\ In seg (JS.split_slash s).
Proof.
  unfold JS.filter_Boolean. rewrite filter_In. intros [Hin Hne].
  repeat split; [| |exact Hin].
  - intros ->. discriminate.
  - pose proof (split_slash_segments s) as Hall.
    rewrite List.Forall_forall in Hall. apply Hall, Hin.
Qed.

End StringFacts.

(** ** Running the hooks *)

Ltac unfold_monad :=
  unfold mbind, M_bind, mret, M_ret, createNode, createPage, panicOnBuild,
    createFieldExtension, createTypes, getNode, put_node, emit, throw in *.

Lemma add_child_id (parent child : Node.t) :
  Node.id (add_child parent child) = Node.id parent.
Proof. unfold add_child. case_bool_decide; reflexivity. Qed.

Lemma add_child_has_child (parent child : Node.t) :
  In (Node.id child) (Node.children (add_child parent child)).
Proof.
  unfold add_child. case_bool_decide as Hin.
  - apply list_elem_of_In, Hin.
  - cbn. apply in_or_app. right. left. reflexivity.
Qed.

Section HookRuns.
Context `{Externals}.

Lemma forEach_createPage {A : Type} (g : A -> Page.t) (l : list A) :
  forall w,
    forEach l (fun x => createPage (g x)) w =
    (Returned tt, mk_world (store w) (trace w ++ List.map (fun x => CreatePage (g x)) l)).
Proof.
  induction l as [|x r IH]; intros [st tr]; cbn [forEach List.map].
  - unfold_monad. cbn. rewrite app_nil_r. reflexivity.
  - unfold mbind, M_bind. unfold createPage at 1. unfold emit at 1.
    rewrite IH. cbn. rewrite <- app_assoc. reflexivity.
Qed.

(** What a run of createPages returns and logs, by the shape of the query
    result. *)
Lemma createPages_run (graphql : string -> Query.result) (st : gmap string Node.t) :
  run (createPages graphql) st =
  match Query.errors (graphql stories_query) with
  | Some errors =>
      (Returned tt,
       mk_world st [CreatePage stories_page; Graphql stories_query;
                    PanicOnBuild "There was an error loading your pages" errors])
  | None =>
      match Query.data (graphql stories_query) with
      | None =>
          (Threw "TypeError",
           mk_world st [CreatePage stories_page; Graphql stories_query])
      | Some nodes =>
          (Returned tt,
           mk_world st ([CreatePage stories_page; Graphql stories_query]
                          ++ story_pages nodes))
      end
  end.
Proof.
  unfold run, createPages, story_pages.
  destruct (Query.errors (graphql stories_query)) as [errs|].
  - reflexivity.
  - destruct (Query.data (graphql stories_query)) as [nodes|].
    + unfold mbind, M_bind. unfold createPage at 1. unfold emit. cbn [store trace app].
      rewrite forEach_createPage. reflexivity.
    + reflexivity.
Qed.

(** What a run of onCreateNode returns, stores and logs. *)
Lemma onCreateNode_run (node : Node.t) (st : gmap string Node.t) :
  run (onCreateNode node) st =
  if negb (String.eqb (Internal.type (Node.internal node)) "Mdx")
  then (Returned tt, mk_world st [])
  else
    match Node.parent node ≫= (fun k => st !! k) with
    | None => (Threw "TypeError", mk_world st [])
    | Some fileNode =>
        if strict_eq (Node.sourceInstanceName fileNode) (JS.JStr "stories")
        then
          (Returned tt,
           mk_world
             (<[Node.id node := add_child node (child_of node)]>
                (<[Node.id (child_of node) := child_of node]> st))
             [CreateNode (child_of node);
              CreateParentChildLink node (child_of node)])
        else (Returned tt, mk_world st [])
    end.
Proof.
  unfold run, onCreateNode.
  destruct (negb (Internal.type (Node.internal node) =? "Mdx")); [reflexivity|].
  unfold mbind at 1. unfold M_bind at 1. unfold getNode at 1. cbn [store trace].
  destruct (Node.parent node ≫= (fun k => st !! k)) as [fileNode|]; [|reflexivity].
  destruct (strict_eq (Node.sourceInstanceName fileNode) (JS.JStr "stories"));
    [|reflexivity].
  fold (child_of node).
  do 2 unfold_monad. cbn [store trace app].
  change (createNodeId (Node.id node +:+ " >>> MdxStoryPage"))
    with (Node.id (child_of node)).
  cbn [mbind option_bind]. rewrite lookup_insert_eq.
  unfold createParentChildLink. unfold_monad. cbn [store trace app].
  rewrite add_child_id. reflexivity.
Qed.

End HookRuns.

(** ** The slug resolver *)

Section Slugify.
Context `{Externals}.

(** The resolver computes the slug the pipeline is described with. *)
Lemma slugify_spec (source : Node.t) : slugify source = spec_slug source.
Proof.
  unfold slugify, spec_slug. rewrite replace_slash_runs_collapse.
  destruct (JS.truthy (Node.slug source)); reflexivity.
Qed.

Lemma spec_slug_normal (source : Node.t) : slash_normal (spec_slug source).
Proof. unfold spec_slug. apply collapse_slash_normal. Qed.

Lemma slugify_normal (source : Node.t) : slash_normal (slugify source).
Proof. rewrite slugify_spec. apply spec_slug_normal. Qed.

Lemma story_page_path (page : Query.page_node) :
  Page.path (story_page page) = collapse_slashes (Query.slug page).
Proof. apply replace_slash_runs_collapse. Qed.

(** The page of a slug the resolver produced sits at that very slug. *)
Lemma story_page_path_slugify (source : Node.t) :
  Page.path (story_page (query_node_of source)) = slugify source.
Proof.
  rewrite story_page_path. apply collapse_fixed_normal, slugify_normal.
Qed.

Lemma createPages_actions_ok (graphql : string -> Query.result)
    (st : gmap string Node.t) (nodes : list Query.page_node) :
  Query.errors (graphql stories_query) = None ->
  Query.data (graphql stories_query) = Some nodes ->
  run (createPages graphql) st =
  (Returned tt,
   mk_world st ([CreatePage stories_page; Graphql stories_query] ++ story_pages nodes)).
Proof. intros He Hd. rewrite createPages_run, He, Hd. reflexivity. Qed.

Lemma story_pages_In (nodes : list Query.page_node) (page : Query.page_node) :
  In page nodes -> In (CreatePage (story_page page)) (story_pages nodes).
Proof. intros Hin. unfold story_pages. apply in_map_iff. exists page. auto. Qed.

(** C7: the string [slugify] returns starts with exactly one slash and has
    no two consecutive slashes anywhere; this holds for every source object,
    in particular for those whose [slug] and [title] are strings or whose
    [slug] is absent. *)
Theorem slugify_single_leading_slash (source : Node.t) :
  String.get 0 (slugify source) = Some "/"%char /\
  String.get 1 (slugify source) <> Some "/"%char /\
  slash_normal (slugify source).
Proof.
  pose proof (slugify_normal source) as Hn.
  assert (H0 : String.get 0 (slugify source) = Some "/"%char).
  { rewrite slugify_spec. unfold spec_slug. rewrite collapse_cons_slash. reflexivity. }
  repeat split; [exact H0 | | exact Hn].
  intros H1. apply (Hn 0). split; assumption.
Qed.

(** C4: the resolver yields the [slug] field when truthy and the kebab-cased
    title otherwise, behind a slash and with slash runs collapsed, and the
    page createPages emits for a story whose query node carries the resolved
    slug has exactly that string as its path. *)
Theorem pipeline_path_is_resolved_slug (source : Node.t)
    (graphql : string -> Query.result) (st : gmap string Node.t)
    (nodes : list Query.page_node) :
  Query.errors (graphql stories_query) = None ->
  Query.data (graphql stories_query) = Some nodes ->
  In (query_node_of source) nodes ->
  slugify source = spec_slug source /\
  exists p,
    In (CreatePage p) (actions_of (createPages graphql) st) /\
    Page.slug (Page.context_ p) = Some (spec_slug source) /\
    Page.path p = spec_slug source.
Proof.
  intros He Hd Hin. split; [apply slugify_spec|].
  exists (story_page (query_node_of source)). split; [|split].
  - unfold actions_of. rewrite (createPages_actions_ok _ _ _ He Hd). cbn [snd trace].
    apply in_or_app. right. apply story_pages_In, Hin.
  - cbn. rewrite slugify_spec. reflexivity.
  - rewrite story_page_path_slugify. apply slugify_spec.
Qed.

(** C5: for every node of the query result createPages emits a page whose
    path is the slug with slash runs collapsed, whose component is the story
    template, and whose context holds the original slug, the non-empty
    segments of the slug between slashes, and the format [DD.MM.YYYY]. *)
Theorem createPages_story_page (graphql : string -> Query.result)
    (st : gmap string Node.t) (nodes : list Query.page_node)
    (page : Query.page_node) :
  Query.errors (graphql stories_query) = None ->
  Query.data (graphql stories_query) = Some nodes ->
  In page nodes ->
  exists p segs,
    In (CreatePage p) (actions_of (createPages graphql) st) /\
    Page.path p = collapse_slashes (Query.slug page) /\
    Page.component p = "./src/templates/story-page-query.js" /\
    Page.slug (Page.context_ p) = Some (Query.slug page) /\
    join_slash segs = Query.slug page /\
    Forall (fun seg => has_slash seg = false) segs /\
    Page.breadcrumbs (Page.context_ p) =
      List.filter (fun seg => negb (String.eqb seg "")) segs /\
    Page.formatString (Page.context_ p) = "DD.MM.YYYY".
Proof.
  intros He Hd Hin.
  exists (story_page page), (JS.split_slash (Query.slug page)).
  split; [|split; [|split; [|split; [|split; [|split; [|split]]]]]].
  - unfold actions_of. rewrite (createPages_actions_ok _ _ _ He Hd). cbn [snd trace].
    apply in_or_app. right. apply story_pages_In, Hin.
  - apply story_page_path.
  - reflexivity.
  - reflexivity.
  - apply join_split_slash.
  - apply split_slash_segments.
  - reflexivity.
  - reflexivity.
Qed.

End Slugify.

(** ** createPages *)

Section CreatePages.
Context `{Externals}.

(** On any result without errors, resolved by the schema or not: the calls
    after the listing page and the query are one [createPage] per node, in
    order; the path of a node's page is its slug with slash runs collapsed,
    which is the slug itself when it has no two consecutive slashes; and two
    distinct slugs without consecutive slashes get distinct paths. *)
Theorem createPages_one_page_per_node (graphql : string -> Query.result)
    (st : gmap string Node.t) (nodes : list Query.page_node) :
  Query.errors (graphql stories_query) = None ->
  Query.data (graphql stories_query) = Some nodes ->
  actions_of (createPages graphql) st =
    CreatePage stories_page :: Graphql stories_query ::
    List.map (fun page => CreatePage (story_page page)) nodes /\
  (forall page, In page nodes ->
     Page.path (story_page page) = collapse_slashes (Query.slug page) /\
     (slash_normal (Query.slug page) ->
      Page.path (story_page page) = Query.slug page)) /\
  (forall source,
     slash_normal (Query.slug (query_node_of source)) /\
     Page.path (story_page (query_node_of source)) = slugify source) /\
  (forall p1 p2, In p1 nodes -> In p2 nodes ->
     slash_normal (Query.slug p1) -> slash_normal (Query.slug p2) ->
     Query.slug p1 <> Query.slug p2 ->
     Page.path (story_page p1) <> Page.path (story_page p2)).
Proof.
  intros He Hd. split; [|split; [|split]].
  - unfold actions_of. rewrite (createPages_actions_ok _ _ _ He Hd). reflexivity.
  - intros page _. split; [apply story_page_path|].
    intros Hn. rewrite story_page_path. apply collapse_fixed_normal, Hn.
  - intros source. split; [apply slugify_normal | apply story_page_path_slugify].
  - intros p1 p2 _ _ Hn1 Hn2 Hne. rewrite !story_page_path.
    rewrite (collapse_fixed_normal _ Hn1), (collapse_fixed_normal _ Hn2). exact Hne.
Qed.

(** C2: when the query returns errors, createPages reports them through
    [panicOnBuild] as its last call and returns; the store is untouched and
    no story page is created. *)
Theorem createPages_errors_panic (graphql : string -> Query.result)
    (st : gmap string Node.t) (errs : list string) :
  Query.errors (graphql stories_query) = Some errs ->
  actions_of (createPages graphql) st =
    [CreatePage stories_page; Graphql stories_query;
     PanicOnBuild "There was an error loading your pages" errs] /\
  result_of (createPages graphql) st = Returned tt /\
  store_after (createPages graphql) st = st /\
  (forall a, In a (actions_of (createPages graphql) st) ->
     is_story_page_action a = false).
Proof.
  intros He. unfold actions_of, result_of, store_after.
  rewrite createPages_run, He. cbn [fst snd trace store].
  repeat split.
  intros a [<-|[<-|[<-|[]]]]; reflexivity.
Qed.

(** C8: the first call of every run of createPages creates the [/stories]
    listing page (template stories-page-query, breadcrumbs [stories]) and
    the query comes second; in a run whose query returns errors the only
    call after these two is [panicOnBuild]. *)
Theorem createPages_listing_page_always (graphql : string -> Query.result)
    (st : gmap string Node.t) :
  exists rest,
    actions_of (createPages graphql) st =
      CreatePage stories_page :: Graphql stories_query :: rest /\
    Page.path stories_page = "/stories" /\
    Page.component stories_page = "./src/templates/stories-page-query.js" /\
    Page.breadcrumbs (Page.context_ stories_page) = ["stories"] /\
    match Query.errors (graphql stories_query) with
    | Some errs => rest = [PanicOnBuild "There was an error loading your pages" errs]
    | None => Forall (fun a => is_story_page_action a = true) rest
    end.
Proof.
  unfold actions_of. rewrite createPages_run.
  destruct (Query.errors (graphql stories_query)) as [errs|].
  - eexists. cbn [snd trace]. repeat split.
  - destruct (Query.data (graphql stories_query)) as [nodes|].
    + exists (story_pages nodes). cbn [snd trace app]. repeat split.
      unfold story_pages. apply Forall_map, Forall_true. intros page. reflexivity.
    + exists []. cbn [snd trace]. repeat split. constructor.
Qed.

End CreatePages.

(** ** onCreateNode *)

Section OnCreateNode.
Context `{Externals}.

(** The two ways a run of onCreateNode can go. *)
Lemma onCreateNode_cases (node : Node.t) (st : gmap string Node.t) :
  (story_source st node /\
   run (onCreateNode node) st =
     (Returned tt,
      mk_world
        (<[Node.id node := add_child node (child_of node)]>
           (<[Node.id (child_of node) := child_of node]> st))
        [CreateNode (child_of node); CreateParentChildLink node (child_of node)]))
  \/
  (~ story_source st node /\ snd (run (onCreateNode node) st) = mk_world st []).
Proof.
  rewrite onCreateNode_run. unfold story_source.
  destruct (Internal.type (Node.internal node) =? "Mdx") eqn:Ety; cbn [negb].
  - apply String.eqb_eq in Ety.
    destruct (Node.parent node ≫= (fun k => st !! k)) as [fileNode|] eqn:Ef.
    + unfold strict_eq. case_bool_decide as Hsrc.
      * left. split; [|reflexivity]. split; [exact Ety|]. exists fileNode. auto.
      * right. split; [|reflexivity]. intros [_ (f & Hf & Hs)].
        injection Hf as <-. contradiction.
    + right. split; [|reflexivity]. intros [_ (f & Hf & _)]. discriminate.
  - apply String.eqb_neq in Ety. right. split; [|reflexivity].
    intros [Hty _]. contradiction.
Qed.

(** C3: onCreateNode creates a child MdxStoryPage node and links it to its
    parent exactly when the node is of type [Mdx] and its parent file node
    has [sourceInstanceName] equal to [stories]; for every other node it
    performs no action and leaves the store as it was. *)
Theorem onCreateNode_story_iff (node : Node.t) (st : gmap string Node.t) :
  ((exists c, In (CreateNode c) (actions_of (onCreateNode node) st)) <->
   story_source st node) /\
  ((story_source st node /\
    actions_of (onCreateNode node) st =
      [CreateNode (child_of node); CreateParentChildLink node (child_of node)] /\
    Internal.type (Node.internal (child_of node)) = "MdxStoryPage" /\
    Node.parent (child_of node) = Some (Node.id node) /\
    store_after (onCreateNode node) st !! Node.id node =
      Some (add_child node (child_of node)) /\
    In (Node.id (child_of node)) (Node.children (add_child node (child_of node))))
   \/
   (~ story_source st node /\
    actions_of (onCreateNode node) st = [] /\
    store_after (onCreateNode node) st = st)).
Proof.
  unfold actions_of, store_after.
  destruct (onCreateNode_cases node st) as [[Hsrc Hrun]|[Hsrc Hrun]]; rewrite Hrun;
    cbn [snd trace store].
  - split.
    + split; [intros _; exact Hsrc|]. intros _. exists (child_of node). left. reflexivity.
    + left. split; [exact Hsrc|]. do 3 (split; [reflexivity|]).
      split; [apply lookup_insert_eq | apply add_child_has_child].
  - split.
    + split; [intros [c []] | intros Hs; contradiction].
    + right. split; [exact Hsrc|]. split; reflexivity.
Qed.

(** The falsy values the frontmatter slug can take include absence, [null]
    and the empty string. *)
Lemma falsy_slug_values :
  JS.truthy JS.JUndefined = false /\ JS.truthy JS.JNull = false /\
  JS.truthy (JS.JStr "") = false.
Proof. repeat split. Qed.

(** C9: for an Mdx node of the [stories] source whose frontmatter slug is
    falsy, the MdxStoryPage node passed to [createNode] has [slug] undefined
    and the frontmatter title, so [slugify] resolves its slug from the
    kebab-cased title. *)
Theorem falsy_slug_falls_back_to_title (node fileNode : Node.t)
    (st : gmap string Node.t) :
  Internal.type (Node.internal node) = "Mdx" ->
  (Node.parent node ≫= fun k => st !! k) = Some fileNode ->
  Node.sourceInstanceName fileNode = JS.JStr "stories" ->
  JS.truthy (Frontmatter.slug (Node.frontmatter node)) = false ->
  exists child,
    actions_of (onCreateNode node) st =
      [CreateNode child; CreateParentChildLink node child] /\
    Internal.type (Node.internal child) = "MdxStoryPage" /\
    Node.slug child = JS.JUndefined /\
    Node.title child = Frontmatter.title (Node.frontmatter node) /\
    slugify child =
      collapse_slashes
        (String "/" (kebabCase (Frontmatter.title (Node.frontmatter node)))).
Proof.
  intros Hty Hf Hsrc Hfalsy.
  assert (Hstory : story_source st node) by (split; [exact Hty | eauto]).
  exists (child_of node).
  destruct (onCreateNode_cases node st) as [[_ Hrun]|[Hn _]]; [|contradiction].
  unfold actions_of. rewrite Hrun. cbn [snd trace].
  assert (Hslug : Node.slug (child_of node) = JS.JUndefined).
  { cbn. rewrite Hfalsy. reflexivity. }
  repeat split; [exact Hslug|].
  unfold slugify. rewrite Hslug, replace_slash_runs_collapse. reflexivity.
Qed.

End OnCreateNode.

(** ** Control paths of the hooks *)

Section ControlPaths.

Lemma kinds_story_pages (nodes : list Query.page_node) :
  List.map kind_of (story_pages nodes) = List.repeat KCreatePage (List.length nodes).
Proof.
  unfold story_pages. induction nodes as [|page r IH]; [reflexivity|].
  cbn [List.map List.length List.repeat kind_of]. rewrite IH. reflexivity.
Qed.

(** C6, as the code has it: createSchemaCustomization and sourceNodes perform the same
    sequence of framework calls on every input; onCreateNode performs either
    no call or [createNode] followed by [createParentChildLink], by its
    guard; createPages performs [createPage] and the query, then
    [panicOnBuild] when the query returned errors and one [createPage] per
    result node otherwise. *)
Theorem hooks_action_shapes :
  uniform (fun _ : unit => createSchemaCustomization) /\
  uniform (fun e : Externals => @sourceNodes e) /\
  (forall (e : Externals) (node : Node.t) (st : gmap string Node.t),
     (story_source st node /\
      kinds_of (onCreateNode node) st = [KCreateNode; KCreateParentChildLink])
     \/
     (~ story_source st node /\ kinds_of (onCreateNode node) st = [])) /\
  (forall (graphql : string -> Query.result) (st : gmap string Node.t),
     kinds_of (createPages graphql) st =
       KCreatePage :: KGraphql ::
       match Query.errors (graphql stories_query) with
       | Some _ => [KPanicOnBuild]
       | None =>
           match Query.data (graphql stories_query) with
           | Some nodes => List.repeat KCreatePage (List.length nodes)
           | None => []
           end
       end).
Proof.
  split; [|split; [|split]].
  - intros [] st1 [] st2. reflexivity.
  - intros e1 st1 e2 st2. reflexivity.
  - intros e node st. unfold kinds_of, actions_of.
    destruct (onCreateNode_cases node st) as [[Hs Hrun]|[Hs Hrun]]; rewrite Hrun.
    + left. split; [exact Hs | reflexivity].
    + right. split; [exact Hs | reflexivity].
  - intros graphql st. unfold kinds_of, actions_of. rewrite createPages_run.
    destruct (Query.errors (graphql stories_query)) as [errs|]; [reflexivity|].
    destruct (Query.data (graphql stories_query)) as [nodes|]; [|reflexivity].
    cbn [snd trace app List.map kind_of]. rewrite kinds_story_pages. reflexivity.
Qed.

End ControlPaths.

(** ** Runs on the sample inputs *)

Section Samples.

(** C6 as stated fails: onCreateNode performs two calls on a story document
    and none on its file node, and createPages ends in [panicOnBuild] on a
    failed query but in one [createPage] per node otherwise. *)
Lemma hooks_not_uniform :
  kinds_of (onCreateNode (H := sample_externals) sample_mdx) sample_store =
    [KCreateNode; KCreateParentChildLink] /\
  kinds_of (onCreateNode (H := sample_externals) sample_file) sample_store = [] /\
  kinds_of (createPages (graphql_failed ["boom"])) ∅ =
    [KCreatePage; KGraphql; KPanicOnBuild] /\
  kinds_of (createPages (graphql_ok clashing_nodes)) ∅ =
    [KCreatePage; KGraphql; KCreatePage; KCreatePage] /\
  ~ uniform (onCreateNode (H := sample_externals)) /\
  ~ uniform createPages.
Proof.
  split; [vm_compute; reflexivity|].
  split; [vm_compute; reflexivity|].
  split; [vm_compute; reflexivity|].
  split; [vm_compute; reflexivity|].
  split.
  - intros Hu. specialize (Hu sample_mdx sample_store sample_file sample_store).
    vm_compute in Hu. discriminate Hu.
  - intros Hu.
    specialize (Hu (graphql_failed ["boom"]) ∅ (graphql_ok clashing_nodes) ∅).
    vm_compute in Hu. discriminate Hu.
Qed.

(** Why the resolver matters: handed the slug [/a//b], which [slugify]
    never returns, createPages creates no page at that path; the page sits
    at [/a/b], the path of the distinct slug [/a/b]. *)
Lemma createPages_path_differs_from_slug :
  actions_of (createPages (graphql_ok clashing_nodes)) ∅ =
    [CreatePage stories_page; Graphql stories_query;
     CreatePage (Page.mk "/a/b" storyPageTemplate
                   (Page.mk_context ["a"; "b"] (Some "/a//b") "DD.MM.YYYY"));
     CreatePage (Page.mk "/a/b" storyPageTemplate
                   (Page.mk_context ["a"; "b"] (Some "/a/b") "DD.MM.YYYY"))] /\
  ~ (forall (graphql : string -> Query.result) (st : gmap string Node.t)
            (nodes : list Query.page_node) (page : Query.page_node),
       Query.errors (graphql stories_query) = None ->
       Query.data (graphql stories_query) = Some nodes ->
       In page nodes ->
       exists p, In (CreatePage p) (actions_of (createPages graphql) st) /\
                 Page.path p = Query.slug page) /\
  ~ (forall p1 p2 : Query.page_node,
       Query.slug p1 <> Query.slug p2 ->
       Page.path (story_page p1) <> Page.path (story_page p2)).
Proof.
  split; [vm_compute; reflexivity|]. split.
  - intros Hall.
    destruct (Hall (graphql_ok clashing_nodes) ∅ clashing_nodes
                {| Query.slug := "/a//b" |} eq_refl eq_refl (or_introl eq_refl))
      as (p & Hin & Hp).
    vm_compute in Hin.
    destruct Hin as [Hin|[Hin|[Hin|[Hin|[]]]]]; try discriminate Hin;
      injection Hin as <-; discriminate Hp.
  - intros Hall.
    apply (Hall {| Query.slug := "/a//b" |} {| Query.slug := "/a/b" |});
      [discriminate | reflexivity].
Qed.

(** The run on the sample query result. *)
Lemma createPages_one_page_per_node_witness :
  Query.errors (graphql_ok sample_nodes stories_query) = None /\
  Query.data (graphql_ok sample_nodes stories_query) = Some sample_nodes /\
  actions_of (createPages (graphql_ok sample_nodes)) ∅ =
    CreatePage stories_page :: Graphql stories_query ::
    List.map (fun page => CreatePage (story_page page)) sample_nodes.
Proof.
  split; [reflexivity|]. split; [reflexivity|].
  exact (proj1 (createPages_one_page_per_node (H := sample_externals)
                  (graphql_ok sample_nodes) ∅ sample_nodes eq_refl eq_refl)).
Defined.

(** C2 on a query that failed with one error. *)
Lemma createPages_errors_panic_witness :
  Query.errors (graphql_failed ["boom"] stories_query) = Some ["boom"] /\
  actions_of (createPages (graphql_failed ["boom"])) ∅ =
    [CreatePage stories_page; Graphql stories_query;
     PanicOnBuild "There was an error loading your pages" ["boom"]].
Proof.
  split; [reflexivity|].
  exact (proj1 (createPages_errors_panic (graphql_failed ["boom"]) ∅ ["boom"] eq_refl)).
Defined.

(** C4 on the sample story, whose title resolves to [/hello-world]. *)
Lemma pipeline_path_is_resolved_slug_witness :
  In (query_node_of (H := sample_externals) sample_story) sample_nodes /\
  slugify (H := sample_externals) sample_story = "/hello-world" /\
  exists p,
    In (CreatePage p) (actions_of (createPages (graphql_ok sample_nodes)) ∅) /\
    Page.slug (Page.context_ p) = Some (spec_slug (H := sample_externals) sample_story) /\
    Page.path p = spec_slug (H := sample_externals) sample_story.
Proof.
  split; [left; reflexivity|]. split; [vm_compute; reflexivity|].
  exact (proj2 (pipeline_path_is_resolved_slug (H := sample_externals) sample_story
                  (graphql_ok sample_nodes) ∅ sample_nodes eq_refl eq_refl
                  (or_introl eq_refl))).
Defined.

(** C5 on a slug with a slash run. *)
Lemma createPages_story_page_witness :
  In {| Query.slug := "/a//b" |} clashing_nodes /\
  exists p segs,
    In (CreatePage p) (actions_of (createPages (graphql_ok clashing_nodes)) ∅) /\
    Page.path p = collapse_slashes "/a//b" /\
    Page.component p = "./src/templates/story-page-query.js" /\
    Page.slug (Page.context_ p) = Some "/a//b" /\
    join_slash segs = "/a//b" /\
    Forall (fun seg => has_slash seg = false) segs /\
    Page.breadcrumbs (Page.context_ p) =
      List.filter (fun seg => negb (String.eqb seg "")) segs /\
    Page.formatString (Page.context_ p) = "DD.MM.YYYY".
Proof.
  split; [left; reflexivity|].
  exact (createPages_story_page (graphql_ok clashing_nodes) ∅ clashing_nodes
           {| Query.slug := "/a//b" |} eq_refl eq_refl (or_introl eq_refl)).
Defined.

Lemma sample_mdx_parent :
  (Node.parent sample_mdx ≫= fun k => sample_store !! k) = Some sample_file.
Proof. vm_compute. reflexivity. Defined.

(** C9 on the sample document, whose frontmatter slug is the empty string. *)
Lemma falsy_slug_falls_back_to_title_witness :
  JS.truthy (Frontmatter.slug (Node.frontmatter sample_mdx)) = false /\
  exists child,
    actions_of (onCreateNode (H := sample_externals) sample_mdx) sample_store =
      [CreateNode child; CreateParentChildLink sample_mdx child] /\
    Internal.type (Node.internal child) = "MdxStoryPage" /\
    Node.slug child = JS.JUndefined /\
    Node.title child = JS.JStr "Hello World" /\
    slugify (H := sample_externals) child = collapse_slashes "/hello-world".
Proof.
  split; [reflexivity|].
  exact (falsy_slug_falls_back_to_title (H := sample_externals) sample_mdx sample_file
           sample_store eq_refl sample_mdx_parent eq_refl eq_refl).
Defined.

Example ex_replace_runs : JS.replace_slash_runs "//a///b/c//" = "/a/b/c/".
Proof. reflexivity. Qed.

Example ex_split : JS.split_slash "/a//b/" = [""; "a"; ""; "b"; ""].
Proof. reflexivity. Qed.

Example ex_breadcrumbs : JS.filter_Boolean (JS.split_slash "/a//b/") = ["a"; "b"].
Proof. reflexivity. Qed.

Example ex_number_slug :
  slugify (H := sample_externals)
    (Node.mk "n" None [] (Internal.mk "MdxStoryPage" "" "" None)
       JS.JUndefined Frontmatter.empty
       (JS.JNum 2020) (JS.JStr "t") JS.JUndefined JS.JUndefined JS.JUndefined None)
  = "/2020".
Proof. vm_compute. reflexivity. Qed.

Example ex_slug_extension :
  declared_extension schema_types "MdxStoryPage" "slug" = Some "slugify" /\
  declared_extension schema_types "StoryPage" "slug" = Some "slugify".
Proof. split; reflexivity. Qed.

End Samples.

(** * Further properties of the module *)

(** ** The slash-run replace *)

Section ReplaceFacts.

Lemma collapse_length (s : string) :
  String.length (collapse_slashes s) <= String.length s.
Proof.
  induction s as [|c r IH]; [reflexivity|].
  destruct r as [|c' r']; [reflexivity|].
  rewrite collapse_cons2.
  destruct (JS.is_slash c && JS.is_slash c'); cbn [String.length] in *; lia.
Qed.

Lemma collapse_strip (s : string) :
  strip_slashes (collapse_slashes s) = strip_slashes s.
Proof.
  induction s as [|c r IH]; [reflexivity|].
  destruct r as [|c' r']; [reflexivity|].
  rewrite collapse_cons2.
  destruct (JS.is_slash c && JS.is_slash c') eqn:E.
  - apply andb_true_iff in E as [Hc _].
    rewrite IH. cbn [strip_slashes]. rewrite Hc. reflexivity.
  - change (strip_slashes (String c ?x))
      with (if JS.is_slash c then strip_slashes x else String c (strip_slashes x)).
    rewrite IH. reflexivity.
Qed.

(** X1: Replacing twice is replacing once, and the strings the replace leaves
    alone are exactly those without two consecutive slashes. *)
Theorem replace_slash_runs_fixed_points (s : string) :
  JS.replace_slash_runs (JS.replace_slash_runs s) = JS.replace_slash_runs s /\
  (JS.replace_slash_runs s = s <-> slash_normal s).
Proof.
  rewrite !replace_slash_runs_collapse. split; [apply collapse_idempotent|].
  split.
  - intros Heq. rewrite <- Heq. apply collapse_slash_normal.
  - apply collapse_fixed_normal.
Qed.

(** X2: The replace removes slashes only and never makes the string longer. *)
Theorem replace_slash_runs_removes_only_slashes (s : string) :
  strip_slashes (JS.replace_slash_runs s) = strip_slashes s /\
  String.length (JS.replace_slash_runs s) <= String.length s.
Proof.
  rewrite replace_slash_runs_collapse. split; [apply collapse_strip | apply collapse_length].
Qed.

End ReplaceFacts.

(** ** Breadcrumbs *)

Section BreadcrumbFacts.

Lemma split_slash_cons (s : string) : exists seg segs, JS.split_slash s = seg :: segs.
Proof.
  destruct (JS.split_slash s) as [|seg segs] eqn:E.
  - exfalso. exact (split_slash_nonnil s E).
  - eauto.
Qed.

Lemma split_slash_slash (c : ascii) (r : string) :
  JS.is_slash c = true -> JS.split_slash (String c r) = EmptyString :: JS.split_slash r.
Proof. intros Hc. cbn [JS.split_slash]. rewrite Hc. reflexivity. Qed.

Lemma split_slash_char (c : ascii) (r seg : string) (segs : list string) :
  JS.is_slash c = false -> JS.split_slash r = seg :: segs ->
  JS.split_slash (String c r) = String c seg :: segs.
Proof. intros Hc Hr. cbn [JS.split_slash]. rewrite Hc, Hr. reflexivity. Qed.

Lemma filter_Boolean_empty (segs : list string) :
  JS.filter_Boolean (EmptyString :: segs) = JS.filter_Boolean segs.
Proof. reflexivity. Qed.

(** Collapsing keeps the first segment and the non-empty later ones. *)
Lemma split_collapse (s : string) :
  forall seg segs, JS.split_slash s = seg :: segs ->
  exists segs',
    JS.split_slash (collapse_slashes s) = seg :: segs' /\
    JS.filter_Boolean segs' = JS.filter_Boolean segs.
Proof.
  induction s as [|c r IH]; intros seg segs Hs.
  - exists segs. split; [exact Hs | reflexivity].
  - destruct r as [|c' r'].
    + exists segs. split; [exact Hs | reflexivity].
    + destruct (split_slash_cons (String c' r')) as (h & t & Hr).
      destruct (IH h t Hr) as (t' & Hr' & Ht').
      rewrite collapse_cons2.
      destruct (JS.is_slash c) eqn:Ec.
      * rewrite (split_slash_slash c _ Ec), Hr in Hs. injection Hs as <- <-.
        destruct (JS.is_slash c') eqn:Ec'; cbn [andb].
        -- rewrite (split_slash_slash c' _ Ec') in Hr. injection Hr as <- <-.
           exists t'. split; [exact Hr'|].
           rewrite Ht'. symmetry. apply filter_Boolean_empty.
        -- exists (h :: t'). split.
           ++ rewrite (split_slash_slash c _ Ec), Hr'. reflexivity.
           ++ unfold JS.filter_Boolean in *. cbn [List.filter]. rewrite Ht'. reflexivity.
      * cbn [andb].
        rewrite (split_slash_char c _ h t Ec Hr) in Hs. injection Hs as <- <-.
        exists t'. split; [|exact Ht'].
        apply (split_slash_char c _ h t' Ec Hr').
Qed.

Lemma breadcrumbs_collapse (s : string) :
  breadcrumbs_of (collapse_slashes s) = breadcrumbs_of s.
Proof.
  unfold breadcrumbs_of.
  destruct (split_slash_cons s) as (seg & segs & Hs).
  destruct (split_collapse s seg segs Hs) as (segs' & Hs' & Hf).
  rewrite Hs, Hs'. unfold JS.filter_Boolean in *. cbn [List.filter].
  rewrite Hf. reflexivity.
Qed.

(** X3: The breadcrumbs of a story page, computed from the raw slug, are those
    of the path the page is created at. *)
Theorem story_page_breadcrumbs_of_path (page : Query.page_node) :
  Page.breadcrumbs (Page.context_ (story_page page)) =
    breadcrumbs_of (Page.path (story_page page)) /\
  breadcrumbs_of (JS.replace_slash_runs (Query.slug page)) =
    breadcrumbs_of (Query.slug page).
Proof.
  assert (Hb : breadcrumbs_of (JS.replace_slash_runs (Query.slug page)) =
               breadcrumbs_of (Query.slug page)).
  { rewrite replace_slash_runs_collapse. apply breadcrumbs_collapse. }
  split; [|exact Hb]. cbn [story_page Page.path Page.context_ Page.breadcrumbs].
  symmetry. exact Hb.
Qed.

Lemma breadcrumbs_slash (c : ascii) (r : string) :
  JS.is_slash c = true -> breadcrumbs_of (String c r) = breadcrumbs_of r.
Proof. intros Hc. unfold breadcrumbs_of. rewrite (split_slash_slash c r Hc). reflexivity. Qed.

(** X5: A slug has no breadcrumbs exactly when it consists of slashes only. *)
Theorem breadcrumbs_nil_iff (s : string) :
  breadcrumbs_of s = [] <-> strip_slashes s = EmptyString.
Proof.
  induction s as [|c r IH]; [split; reflexivity|].
  cbn [strip_slashes]. destruct (JS.is_slash c) eqn:Ec.
  - rewrite (breadcrumbs_slash c r Ec). exact IH.
  - destruct (split_slash_cons r) as (seg & segs & Hr).
    unfold breadcrumbs_of. rewrite (split_slash_char c r seg segs Ec Hr).
    split; discriminate.
Qed.

Lemma split_slash_free (seg : string) :
  has_slash seg = false -> JS.split_slash seg = [seg].
Proof.
  induction seg as [|c r IH]; [reflexivity|].
  cbn [has_slash]. intros Hs. apply orb_false_iff in Hs as [Hc Hr].
  apply (split_slash_char c r r [] Hc (IH Hr)).
Qed.

Lemma split_slash_app (seg rest : string) :
  has_slash seg = false ->
  JS.split_slash (seg ++ String "/" rest) = seg :: JS.split_slash rest.
Proof.
  induction seg as [|c r IH]; intros Hs.
  - reflexivity.
  - cbn [has_slash] in Hs. apply orb_false_iff in Hs as [Hc Hr].
    cbn [String.append]. apply (split_slash_char c _ r _ Hc (IH Hr)).
Qed.

Lemma split_join_slash (segs : list string) :
  segs <> [] ->
  Forall (fun seg => has_slash seg = false) segs ->
  JS.split_slash (join_slash segs) = segs.
Proof.
  induction segs as [|seg rest IH]; intros Hne Hall; [contradiction|].
  inversion Hall as [|? ? Hseg Hrest]; subst.
  destruct rest as [|seg2 rest2].
  - apply split_slash_free, Hseg.
  - change (join_slash (seg :: seg2 :: rest2))
      with (seg ++ String "/" (join_slash (seg2 :: rest2))).
    rewrite (split_slash_app _ _ Hseg), IH; [reflexivity | discriminate | exact Hrest].
Qed.

(** X4: Segments that are non-empty and free of slashes come back from joining
    them with slashes, also behind a leading slash: splitting undoes
    joining. *)
Theorem breadcrumbs_join_round_trip (segs : list string) :
  Forall (fun seg => seg <> EmptyString /\ has_slash seg = false) segs ->
  breadcrumbs_of (join_slash segs) = segs /\
  breadcrumbs_of (String "/" (join_slash segs)) = segs.
Proof.
  intros Hall.
  assert (H1 : breadcrumbs_of (join_slash segs) = segs).
  { destruct segs as [|seg rest]; [reflexivity|].
    unfold breadcrumbs_of. rewrite split_join_slash; [|discriminate|].
    - unfold JS.filter_Boolean. apply forallb_filter_id, forallb_forall.
      intros x Hx. rewrite List.Forall_forall in Hall. destruct (Hall x Hx) as [Hne _].
      unfold JS.nonempty. apply negb_true_iff, String.eqb_neq, Hne.
    - eapply Forall_impl; [exact Hall|]. intros x [_ Hx]. exact Hx. }
  split; [exact H1|].
  rewrite (breadcrumbs_slash "/" _ eq_refl). exact H1.
Qed.

End BreadcrumbFacts.

(** ** More on the slug resolver *)

Section SlugifyFacts.
Context `{Externals}.

Lemma slugify_choice (source : Node.t) :
  slugify source = collapse_slashes (String "/" (source_choice source)).
Proof.
  unfold slugify, source_choice. rewrite replace_slash_runs_collapse.
  destruct (JS.truthy (Node.slug source)); reflexivity.
Qed.

Lemma skip_slashes_strip (s : string) :
  JS.skip_slashes s = EmptyString <-> strip_slashes s = EmptyString.
Proof.
  induction s as [|c r IH]; [split; reflexivity|].
  cbn [JS.skip_slashes strip_slashes].
  destruct (JS.is_slash c); [exact IH | split; discriminate].
Qed.

Lemma collapse_empty (s : string) :
  collapse_slashes s = EmptyString <-> s = EmptyString.
Proof.
  split; [|intros ->; reflexivity].
  destruct s as [|c r]; [reflexivity|].
  destruct (collapse_head r c) as [t Ht]. rewrite Ht. discriminate.
Qed.

(** X6: The resolved slug is the bare root [/] exactly when the chosen string,
    the truthy slug or else the kebab-cased title, holds nothing but
    slashes; the empty choice is one such. *)
Theorem slugify_root_iff (source : Node.t) :
  slugify source = "/" <-> strip_slashes (source_choice source) = EmptyString.
Proof.
  rewrite slugify_choice, collapse_cons_slash, <- skip_slashes_strip.
  split.
  - intros Heq. injection Heq as Heq. apply collapse_empty, Heq.
  - intros ->. reflexivity.
Qed.

(** X7: A string slug resolves to the same slug with or without a leading
    slash, whatever the titles. *)
Theorem slugify_leading_slash_optional (a b : Node.t) (s : string) :
  s <> EmptyString ->
  Node.slug a = JS.JStr s ->
  Node.slug b = JS.JStr (String "/" s) ->
  slugify a = slugify b.
Proof.
  intros Hne Ha Hb. rewrite !slugify_choice. unfold source_choice.
  rewrite Ha, Hb. cbn [JS.truthy JS.to_string].
  apply String.eqb_neq in Hne. rewrite Hne. cbn [negb String.eqb].
  rewrite (collapse_cons2 "/" "/" s). reflexivity.
Qed.

(** X8: The slug of the story node built from a document is decided by the
    frontmatter alone: its slug when truthy, else the kebab-cased title,
    behind one slash and with slash runs collapsed; the page of that slug
    is created at this path and keeps it as its context slug. *)
Theorem story_slug_from_frontmatter (node : Node.t) :
  let resolved :=
    collapse_slashes (String "/" (frontmatter_choice (Node.frontmatter node))) in
  slugify (child_of node) = resolved /\
  Page.path (story_page (query_node_of (child_of node))) = resolved /\
  Page.slug (Page.context_ (story_page (query_node_of (child_of node)))) = Some resolved.
Proof.
  intros resolved.
  assert (Hs : slugify (child_of node) = resolved).
  { rewrite slugify_choice. unfold resolved, source_choice, frontmatter_choice.
    cbn [child_of mdxStoryPage_node Node.slug Node.title fieldData_of
         FieldData.slug FieldData.title].
    destruct (JS.truthy (Frontmatter.slug (Node.frontmatter node))) eqn:E.
    - rewrite E. reflexivity.
    - reflexivity. }
  split; [exact Hs|]. split.
  - rewrite story_page_path_slugify. exact Hs.
  - cbn [story_page Page.context_ Page.slug query_node_of Query.slug].
    rewrite Hs. reflexivity.
Qed.

End SlugifyFacts.

(** ** More on the hooks *)

Section HookFacts.
Context `{Externals}.

Lemma onCreateNode_not_mdx (n : Node.t) (st : gmap string Node.t) :
  Internal.type (Node.internal n) <> "Mdx" ->
  run (onCreateNode n) st = (Returned tt, mk_world st []).
Proof.
  intros Hty. rewrite onCreateNode_run.
  apply String.eqb_neq in Hty. rewrite Hty. reflexivity.
Qed.

Lemma sourceNodes_run (st : gmap string Node.t) :
  run sourceNodes st =
  (Returned tt, mk_world (<["site >>> config" := config_node]> st) [CreateNode config_node]).
Proof. reflexivity. Qed.

(** X9: The nodes the hooks create do not set the hooks off again: onCreateNode
    called on a node passed to [createNode] by sourceNodes or by
    onCreateNode itself returns without any action, on every store. *)
Theorem onCreateNode_ignores_created_nodes (node n : Node.t)
    (st st' : gmap string Node.t) :
  In (CreateNode n) (actions_of sourceNodes st) \/
  In (CreateNode n) (actions_of (onCreateNode node) st) ->
  run (onCreateNode n) st' = (Returned tt, mk_world st' []).
Proof.
  intros Hin. apply onCreateNode_not_mdx.
  destruct Hin as [Hin|Hin].
  - unfold actions_of in Hin. rewrite sourceNodes_run in Hin. cbn [snd trace] in Hin.
    destruct Hin as [Heq|[]]. injection Heq as <-. discriminate.
  - unfold actions_of in Hin.
    destruct (onCreateNode_cases node st) as [[_ Hrun]|[_ Hrun]];
      rewrite Hrun in Hin; cbn [snd trace] in Hin.
    + destruct Hin as [Heq|[Heq|[]]]; [|discriminate Heq].
      injection Heq as <-. discriminate.
    + destruct Hin.
Qed.

(** X10: onCreateNode throws exactly on an Mdx node whose parent is not in the
    store, before any action; on every other node it returns. *)
Theorem onCreateNode_throws_iff (node : Node.t) (st : gmap string Node.t) :
  (result_of (onCreateNode node) st = Threw "TypeError" <->
   Internal.type (Node.internal node) = "Mdx" /\
   (Node.parent node ≫= fun k => st !! k) = None) /\
  (result_of (onCreateNode node) st = Returned tt \/
   run (onCreateNode node) st = (Threw "TypeError", mk_world st [])).
Proof.
  unfold result_of. rewrite onCreateNode_run.
  destruct (Internal.type (Node.internal node) =? "Mdx") eqn:Ety; cbn [negb].
  - apply String.eqb_eq in Ety.
    destruct (Node.parent node ≫= (fun k => st !! k)) as [fileNode|].
    + destruct (strict_eq (Node.sourceInstanceName fileNode) (JS.JStr "stories"));
        cbn [fst]; (split; [split; [discriminate | intros [_ ?]; discriminate] | left; reflexivity]).
    + cbn [fst]. split; [split; [auto | reflexivity] | right; reflexivity].
  - apply String.eqb_neq in Ety. cbn [fst].
    split; [split; [discriminate | intros [? _]; contradiction] | left; reflexivity].
Qed.

(** X11: onCreateNode writes two entries at most: every node other than the
    document and its story child stays as it was, and the child is found
    under its own id when that differs from the document's. *)
Theorem onCreateNode_store_frame (node : Node.t) (st : gmap string Node.t) :
  (forall k, k <> Node.id node -> k <> Node.id (child_of node) ->
     store_after (onCreateNode node) st !! k = st !! k) /\
  (story_source st node -> Node.id (child_of node) <> Node.id node ->
     store_after (onCreateNode node) st !! Node.id (child_of node) =
       Some (child_of node) /\
     Node.parent (child_of node) = Some (Node.id node)).
Proof.
  unfold store_after.
  destruct (onCreateNode_cases node st) as [[Hs Hrun]|[Hs Hrun]]; rewrite Hrun;
    cbn [snd store]; split.
  - intros k Hk1 Hk2. rewrite !lookup_insert_ne by congruence. reflexivity.
  - intros _ Hne. split; [|reflexivity].
    rewrite lookup_insert_ne by congruence. apply lookup_insert_eq.
  - reflexivity.
  - intros Hs'. contradiction.
Qed.

(** X12: sourceNodes stores the configuration node under the fixed id, touches
    no other entry, and sourcing again changes nothing. *)
Theorem sourceNodes_store (st : gmap string Node.t) :
  (exists n,
     store_after sourceNodes st !! "site >>> config" = Some n /\
     Internal.type (Node.internal n) = "MinimalBlogConfig" /\
     Node.config n = Some (Config.mk "/stories" [] [])) /\
  (forall k, k <> "site >>> config" -> store_after sourceNodes st !! k = st !! k) /\
  store_after sourceNodes (store_after sourceNodes st) = store_after sourceNodes st.
Proof.
  unfold store_after. rewrite !sourceNodes_run. cbn [snd store].
  split; [|split].
  - exists config_node. split; [apply lookup_insert_eq | split; reflexivity].
  - intros k Hk. apply lookup_insert_ne. congruence.
  - apply insert_insert_eq.
Qed.

End HookFacts.

Section CreatePagesFacts.

(** X13: createPages throws exactly when the query result carries neither errors
    nor data; by then the listing page is created and the query has run, and
    in no case does the hook write to the node store. *)
Theorem createPages_throws_iff (graphql : string -> Query.result)
    (st : gmap string Node.t) :
  (result_of (createPages graphql) st = Threw "TypeError" <->
   Query.errors (graphql stories_query) = None /\
   Query.data (graphql stories_query) = None) /\
  (result_of (createPages graphql) st = Returned tt \/
   run (createPages graphql) st =
     (Threw "TypeError", mk_world st [CreatePage stories_page; Graphql stories_query])) /\
  store_after (createPages graphql) st = st.
Proof.
  unfold result_of, store_after. rewrite createPages_run.
  destruct (Query.errors (graphql stories_query)) as [errs|].
  - cbn [fst snd store]. split; [|split; [left|]; reflexivity].
    split; [discriminate | intros [? _]; discriminate].
  - destruct (Query.data (graphql stories_query)) as [nodes|]; cbn [fst snd store].
    + split; [|split; [left|]; reflexivity].
      split; [discriminate | intros [_ ?]; discriminate].
    + split; [|split; [right|]; reflexivity]. split; auto.
Qed.

(** X14: createPages does not keep story pages off the listing path: a node
    whose slug collapses to [/stories] gets a second [createPage] call at
    the path of the listing page, with the story template. *)
Theorem createPages_listing_path_clash (graphql : string -> Query.result)
    (st : gmap string Node.t) (nodes : list Query.page_node)
    (page : Query.page_node) :
  Query.errors (graphql stories_query) = None ->
  Query.data (graphql stories_query) = Some nodes ->
  In page nodes ->
  collapse_slashes (Query.slug page) = "/stories" ->
  exists before after,
    actions_of (createPages graphql) st =
      CreatePage stories_page :: before ++ CreatePage (story_page page) :: after /\
    Page.path (story_page page) = Page.path stories_page /\
    Page.component (story_page page) <> Page.component stories_page.
Proof.
  intros He Hd Hin Hpath.
  apply in_split in Hin as (l1 & l2 & ->).
  exists (Graphql stories_query :: story_pages l1), (story_pages l2).
  split; [|split].
  - unfold actions_of. rewrite (createPages_actions_ok _ _ _ He Hd). cbn [snd trace].
    unfold story_pages. rewrite List.map_app. reflexivity.
  - rewrite story_page_path. exact Hpath.
  - discriminate.
Qed.

End CreatePagesFacts.

(** ** The passthrough resolver *)

Section PassthroughFacts.
Context `{Externals} {Args R : Type}.

(** X16: After onCreateNode has built the story node of a document, a passthrough
    field of the story resolves through the Mdx resolver of that field,
    called on the document as the store now holds it (the child linked),
    with the same arguments and field name. *)
Theorem mdxResolverPassthrough_after_onCreateNode (Mdx : @schema_type Args R)
    (getFields : string -> option (option resolver)) (resolve : resolver)
    (fieldName : string) (args : Args) (node : Node.t) (st : gmap string Node.t) :
  story_source st node ->
  Mdx = Some getFields ->
  getFields fieldName = Some (Some resolve) ->
  mdxResolverPassthrough Mdx fieldName (child_of node) args
    (snd (run (onCreateNode node) st)) =
  resolve (Some (add_child node (child_of node))) args fieldName
    (snd (run (onCreateNode node) st)).
Proof.
  intros Hs -> Hg.
  destruct (onCreateNode_cases node st) as [[_ Hrun]|[Hn _]]; [|contradiction].
  rewrite Hrun. cbn [snd]. unfold mdxResolverPassthrough. unfold_monad.
  cbn [store]. rewrite Hg.
  change (Node.parent (child_of node)) with (Some (Node.id node)).
  cbn [mbind option_bind]. rewrite lookup_insert_eq. reflexivity.
Qed.

End PassthroughFacts.

(** ** Further runs on the sample inputs *)

Section MoreSamples.

Lemma sample_story_source : story_source sample_store sample_mdx.
Proof.
  split; [reflexivity|]. exists sample_file.
  split; [vm_compute; reflexivity | reflexivity].
Defined.

Lemma breadcrumbs_join_round_trip_witness :
  Forall (fun seg => seg <> EmptyString /\ has_slash seg = false) ["notes"; "2020"] /\
  breadcrumbs_of (join_slash ["notes"; "2020"]) = ["notes"; "2020"] /\
  breadcrumbs_of (String "/" (join_slash ["notes"; "2020"])) = ["notes"; "2020"].
Proof.
  assert (Hall : Forall (fun seg => seg <> EmptyString /\ has_slash seg = false)
                   ["notes"; "2020"]).
  { repeat constructor; discriminate. }
  split; [exact Hall|].
  exact (breadcrumbs_join_round_trip ["notes"; "2020"] Hall).
Defined.

Lemma slugify_leading_slash_optional_witness :
  slugify (H := sample_externals) (story_with (JS.JStr "notes//x") (JS.JStr "A")) =
  slugify (H := sample_externals) (story_with (JS.JStr "/notes//x") (JS.JStr "B")).
Proof.
  apply (slugify_leading_slash_optional (H := sample_externals) _ _ "notes//x");
    [discriminate | reflexivity | reflexivity].
Defined.

Lemma onCreateNode_ignores_created_nodes_witness :
  In (CreateNode (child_of (H := sample_externals) sample_mdx))
    (actions_of (onCreateNode (H := sample_externals) sample_mdx) sample_store) /\
  run (onCreateNode (H := sample_externals) (child_of (H := sample_externals) sample_mdx))
    sample_store = (Returned tt, mk_world sample_store []).
Proof.
  assert (Hin : In (CreateNode (child_of (H := sample_externals) sample_mdx))
                  (actions_of (onCreateNode (H := sample_externals) sample_mdx) sample_store)).
  { vm_compute. left. reflexivity. }
  split; [exact Hin|].
  exact (onCreateNode_ignores_created_nodes (H := sample_externals) sample_mdx _
           sample_store sample_store (or_intror Hin)).
Defined.

Lemma createPages_listing_path_clash_witness :
  collapse_slashes "//stories" = "/stories" /\
  exists before after,
    actions_of (createPages (graphql_ok listing_clash_nodes)) ∅ =
      CreatePage stories_page :: before ++
      CreatePage (story_page {| Query.slug := "//stories" |}) :: after /\
    Page.path (story_page {| Query.slug := "//stories" |}) = Page.path stories_page /\
    Page.component (story_page {| Query.slug := "//stories" |}) <>
      Page.component stories_page.
Proof.
  split; [reflexivity|].
  exact (createPages_listing_path_clash (graphql_ok listing_clash_nodes) ∅
           listing_clash_nodes {| Query.slug := "//stories" |} eq_refl eq_refl
           (or_intror (or_introl eq_refl)) eq_refl).
Defined.

Lemma mdxResolverPassthrough_after_onCreateNode_witness :
  story_source sample_store sample_mdx /\
  fst (mdxResolverPassthrough sample_schema "excerpt"
         (child_of (H := sample_externals) sample_mdx) tt
         (snd (run (onCreateNode (H := sample_externals) sample_mdx) sample_store)))
  = Returned "mdx-1".
Proof.
  split; [exact sample_story_source|].
  rewrite (mdxResolverPassthrough_after_onCreateNode (H := sample_externals)
             sample_schema sample_fields _ "excerpt" tt sample_mdx sample_store
             sample_story_source eq_refl eq_refl).
  reflexivity.
Defined.

Example ex_orphan_throws :
  run (onCreateNode (H := sample_externals) orphan_mdx) sample_store =
  (Threw "TypeError", mk_world sample_store []).
Proof. vm_compute. reflexivity. Qed.

Example ex_blank_result_throws :
  run (createPages graphql_blank) ∅ =
  (Threw "TypeError", mk_world ∅ [CreatePage stories_page; Graphql stories_query]).
Proof. reflexivity. Qed.

Example ex_root_slug :
  slugify (H := sample_externals) (story_with JS.JUndefined (JS.JStr "")) = "/" /\
  breadcrumbs_of "/" = [].
Proof. split; reflexivity. Qed.

End MoreSamples.

(** ** One page per content slug *)

Section OnePagePerSlug.
Context `{Externals}.

Lemma resolved_node_path (nodes : list Query.page_node) (page : Query.page_node) :
  resolved_nodes nodes -> In page nodes ->
  Page.path (story_page page) = Query.slug page.
Proof.
  intros Hres Hin. unfold resolved_nodes in Hres.
  rewrite List.Forall_forall in Hres. destruct (Hres page Hin) as [source ->].
  apply story_page_path_slugify.
Qed.

(** C1: in every run of createPages whose query returns no errors, the calls
    after the listing page and the query are exactly one [createPage] per
    node of the [allStoryPage] result, in the order of the result; the path
    of a node's page is that node's slug, which the page also keeps as its
    context slug; and the pages of two nodes with distinct slugs have
    distinct paths. *)
Theorem createPages_one_page_per_slug (graphql : string -> Query.result)
    (st : gmap string Node.t) (nodes : list Query.page_node) :
  Query.errors (graphql stories_query) = None ->
  Query.data (graphql stories_query) = Some nodes ->
  resolved_nodes nodes ->
  actions_of (createPages graphql) st =
    CreatePage stories_page :: Graphql stories_query ::
    List.map (fun page => CreatePage (story_page page)) nodes /\
  (forall page, In page nodes ->
     Page.path (story_page page) = Query.slug page /\
     Page.slug (Page.context_ (story_page page)) = Some (Query.slug page)) /\
  (forall p1 p2, In p1 nodes -> In p2 nodes ->
     Query.slug p1 <> Query.slug p2 ->
     Page.path (story_page p1) <> Page.path (story_page p2)).
Proof.
  intros He Hd Hres. split; [|split].
  - unfold actions_of. rewrite (createPages_actions_ok _ _ _ He Hd). reflexivity.
  - intros page Hin. split; [|reflexivity].
    apply (resolved_node_path nodes page Hres Hin).
  - intros p1 p2 Hin1 Hin2 Hne.
    rewrite (resolved_node_path nodes p1 Hres Hin1).
    rewrite (resolved_node_path nodes p2 Hres Hin2). exact Hne.
Qed.

End OnePagePerSlug.

Section OnePagePerSlugSample.

Lemma resolved_sample_nodes_resolved :
  resolved_nodes (H := sample_externals) resolved_sample_nodes.
Proof. repeat constructor; eexists; reflexivity. Defined.

(** C1 on two resolved stories: the pages sit at [/hello-world] and
    [/notes/2020], the slugs of the nodes. *)
Lemma createPages_one_page_per_slug_witness :
  List.map Query.slug resolved_sample_nodes = ["/hello-world"; "/notes/2020"] /\
  actions_of (createPages (graphql_ok resolved_sample_nodes)) ∅ =
    CreatePage stories_page :: Graphql stories_query ::
    List.map (fun page => CreatePage (story_page page)) resolved_sample_nodes /\
  (forall page, In page resolved_sample_nodes ->
     Page.path (story_page page) = Query.slug page /\
     Page.slug (Page.context_ (story_page page)) = Some (Query.slug page)) /\
  (forall p1 p2, In p1 resolved_sample_nodes -> In p2 resolved_sample_nodes ->
     Query.slug p1 <> Query.slug p2 ->
     Page.path (story_page p1) <> Page.path (story_page p2)).
Proof.
  split; [vm_compute; reflexivity|].
  exact (createPages_one_page_per_slug (H := sample_externals)
           (graphql_ok resolved_sample_nodes) ∅ resolved_sample_nodes
           eq_refl eq_refl resolved_sample_nodes_resolved).
Defined.

End OnePagePerSlugSample.
